(** * Punjab Bus Assistant API: a shallow embedding of [bus_api.py]

    The module is a FastAPI service with two routes.  [POST /chat] asks a
    language model for a SQL statement, runs it, asks the model again to phrase
    the result, remembers the turn in a bounded in-memory window and logs it to
    the [chatlogs] table.  [GET /] is a liveness probe.

    Python [str] values are sequences of Unicode code points, so they are
    modelled as lists of code points; this matters for [str.strip], whose
    default character class is the Unicode white space.  The handler's effects
    (the module-level [chat_history], the calls to the model, the cursor, the
    connection and the clock, and raised exceptions) are modelled by a small
    monad over an explicit state that also records every collaborator call. *)

From Stdlib Require String.
From Stdlib Require Import Ascii List NArith ZArith Bool Arith Lia.
Import String.StringSyntax.
Import ListNotations.

Set Implicit Arguments.

(** ** Python strings *)

Definition char := N.
Definition str := list char.

(** An ASCII literal as a Python string. *)
Definition lit (s : String.string) : str :=
  map N_of_ascii (String.list_ascii_of_string s).

Arguments lit s%_string_scope.

Definition char_eqb (a b : char) : bool := N.eqb a b.

(** [str.isspace] on one code point (CPython's [_PyUnicode_IsWhitespace]). *)
Definition isspace (c : char) : bool :=
  (((9 <=? c) && (c <=? 13)) || ((28 <=? c) && (c <=? 32))
   || (c =? 133) || (c =? 160) || (c =? 5760)
   || ((8192 <=? c) && (c <=? 8202))
   || (c =? 8232) || (c =? 8233) || (c =? 8239) || (c =? 8287)
   || (c =? 12288))%N.

(** [chars] as [str.strip(chars)] reads it: a set of characters. *)
Definition in_chars (chars : str) (c : char) : bool := existsb (char_eqb c) chars.

Fixpoint lstrip_by (p : char -> bool) (s : str) : str :=
  match s with
  | [] => []
  | c :: s' => if p c then lstrip_by p s' else s
  end.

Definition rstrip_by (p : char -> bool) (s : str) : str :=
  rev (lstrip_by p (rev s)).

Definition strip_by (p : char -> bool) (s : str) : str :=
  rstrip_by p (lstrip_by p s).

(** [s.strip()] *)
Definition strip (s : str) : str := strip_by isspace s.

(** [s.strip(chars)] *)
Definition strip_chars (chars : str) (s : str) : str :=
  strip_by (in_chars chars) s.

(** [sep.join(parts)] *)
Fixpoint join (sep : str) (parts : list str) : str :=
  match parts with
  | [] => []
  | [p] => p
  | p :: rest => p ++ sep ++ join sep rest
  end.

(** [a == b] *)
Fixpoint str_eqb (a b : str) : bool :=
  match a, b with
  | [], [] => true
  | x :: a', y :: b' => char_eqb x y && str_eqb a' b'
  | _, _ => false
  end.

(** [sub in s] *)
Definition contains (sub s : str) : Prop :=
  exists pre post, s = pre ++ sub ++ post.

Definition NL : str := lit "
".

(** ** 4. Memory *)

(** One remembered turn: the tuple [(user_input, response_text)]. *)
Definition turn := (str * str)%type.

Definition MAXLEN : nat := 5.

(** [chat_history = deque(maxlen=5)]: the items, oldest first. *)
Definition deque := list turn.

Definition deque_new : deque := [].

(** [deque.append] with a [maxlen]: the item goes to the right end and, if
    the deque has grown past [maxlen], one item is dropped from the left. *)
Definition deque_append (d : deque) (x : turn) : deque :=
  let d' := d ++ [x] in
  if MAXLEN <? length d' then tl d' else d'.

(** [f"User: {u}\nBot: {b}"] *)
Definition format_turn (t : turn) : str :=
  lit "User: " ++ fst t ++ NL ++ lit "Bot: " ++ snd t.

(** [get_chat_context], as a function of the global it reads. *)
Definition get_chat_context (chat_history : deque) : str :=
  join NL (map format_turn chat_history).

(** ** 5. Prompt helpers *)

Definition SCHEMA_PROMPT : str :=
  lit "
You are a SQL assistant for a Punjab transport database.
Rules:
- Only use these tables and columns:
  users(user_id, name, age, mobile_no, email, region_of_commute, created_at)
  busstops(stop_id, stop_name, location, region)
  routes(route_id, route_name, start_stop_id, end_stop_id, distance_km)
  buses(bus_id, bus_number, capacity, current_location, route_id, status)
  drivers(driver_id, name, mobile_no, bus_id, location, shift_start, shift_end)
  tickets(ticket_id, user_id, bus_id, route_id, source_stop_id, destination_stop_id, fare, purchase_time)
  notifications(notification_id, user_id, type, message, sent_at)
  chatlogs(chat_id, user_id, message_text, response_text, created_at)
  routestops(id, route_id, stop_id, stop_order)

- Do NOT use columns that don"
  ++ [8217%N] ++
  lit "t exist.
- Always use LIKE instead of = when filtering stop_name or location.
- For bus availability queries, return bus_number, route_name, current_location, and status.
- If data is not found, return an empty result (do not invent).
- Always include LIMIT 3 to avoid large results.

Examples:

User: Next bus from ISBT Chandigarh to Ludhiana?
SQL:
SELECT b.bus_number, r.route_name, b.current_location, b.status
FROM routes r
JOIN buses b ON r.route_id = b.route_id
JOIN routestops rs1 ON r.route_id = rs1.route_id
JOIN busstops bs1 ON rs1.stop_id = bs1.stop_id
JOIN routestops rs2 ON r.route_id = rs2.route_id
JOIN busstops bs2 ON rs2.stop_id = bs2.stop_id
WHERE bs1.stop_name LIKE '%Chandigarh%'
  AND bs2.stop_name LIKE '%Ludhiana%'
  AND b.status = 'Running'
LIMIT 3;

User: Show all buses from Chandigarh
SQL:
SELECT b.bus_number, r.route_name, b.current_location, b.status
FROM buses b
JOIN routes r ON b.route_id = r.route_id
JOIN routestops rs ON r.route_id = rs.route_id
JOIN busstops bs ON rs.stop_id = bs.stop_id
WHERE bs.stop_name LIKE '%Chandigarh%'
LIMIT 3;
".

(** The statement text of the chat-log insert in [chat_endpoint]. *)
Definition insert_chat : str :=
  lit "
         INSERT INTO chatlogs (user_id, message_text, response_text, created_at)
         VALUES (%s, %s, %s, %s)
     ".

(** [f"{SCHEMA_PROMPT}\nConversation so far:\n{context}\n\nUser: {user_input}\nSQL:"] *)
Definition sql_prompt (context user_input : str) : str :=
  SCHEMA_PROMPT ++ NL ++ lit "Conversation so far:" ++ NL ++ context ++ NL ++ NL
  ++ lit "User: " ++ user_input ++ NL ++ lit "SQL:".

(** The two adjacent f-strings of [format_response]; [raw_results] is the
    query result already rendered by [format]. *)
Definition reply_prompt (context user_input raw_results : str) : str :=
  lit "Conversation so far:" ++ NL ++ context ++ NL ++ NL
  ++ lit "User just asked: " ++ user_input ++ NL
  ++ lit "Here are SQL query results:" ++ NL ++ raw_results ++ NL
  ++ lit "Format this as a clear SMS/WhatsApp style reply:".

(** [response.text.strip().strip("```sql").strip("```")] *)
Definition strip_fence (text : str) : str :=
  strip_chars (lit "```") (strip_chars (lit "```sql") (strip text)).

(** ** Exceptions and outcomes *)

(** A raised [Exception]; [str(e)] is its message. *)
Record exn := Exception { exn_str : str }.

Inductive result (A : Type) : Type :=
| Ok (a : A)
| Raise (e : exn).

Arguments Ok {A} a.
Arguments Raise {A} e.

(** [datetime.datetime] values. *)
Definition timestamp := Z.

(** [class ChatRequest(BaseModel)] *)
Record ChatRequest := { user_id : Z; message : str }.

(** Building a [ChatRequest] from a body: [user_id: int = 1] is optional,
    [message: str] is required. *)
Definition ChatRequest_init (uid : option Z) (msg : str) : ChatRequest :=
  {| user_id := match uid with Some u => u | None => 1%Z end; message := msg |}.

Section Service.

(** One fetched row: the cursor is opened with [dictionary=True], so a row is
    a mapping from column names to database values. *)
Variable Row : Type.

(** The Python values the handler builds and returns. *)
#[warnings="-register-all"]
Inductive pyval :=
| PyStr (s : str)
| PyRows (rows : list Row)
| PyDict (items : list (str * pyval)).

(** How an f-string replacement field renders a query result. *)
Variable py_format : pyval -> str.

(** The parameters of the chat-log insert:
    [(user_id, user_input, response_text, datetime.datetime.now())]. *)
Definition insert_params := (Z * str * str * timestamp)%type.

(** ** The collaborators

    The language model, the database cursor and connection and the clock are
    outside the program.  A [World] fixes what each of them answers to the
    [n]-th collaborator call of the process, whatever the arguments of that
    call are; quantifying over all worlds covers every behaviour they can
    show, failures included, and two runs in the same world from the same
    state are two runs that receive the same answers. *)
Record World := {
  (** [model.generate_content(prompt).text] *)
  model_text : nat -> result str;
  (** [cursor.execute(...)] *)
  cursor_execute_outcome : nat -> result unit;
  (** [cursor.fetchall()] *)
  cursor_fetchall_outcome : nat -> result (list Row);
  (** [db.commit()] *)
  db_commit_outcome : nat -> result unit;
  (** [datetime.datetime.now()] *)
  clock : nat -> timestamp
}.

(** A collaborator call, with its arguments and what came back. *)
Inductive event :=
| EvGenerate (prompt : str) (r : result str)
| EvExecute (operation : str) (params : option insert_params) (r : result unit)
| EvFetchall (r : result (list Row))
| EvCommit (r : result unit)
| EvNow (t : timestamp).

(** The process state: the module-level deque and the number of collaborator
    calls made so far. *)
Record state := { chat_history : deque; tick : nat }.

Definition initial_state : state := {| chat_history := deque_new; tick := 0 |}.

(** ** The handler monad: state, exceptions and the call log *)

Definition M (A : Type) : Type := World -> state -> result A * state * list event.

Definition ret {A} (a : A) : M A := fun _ s => (Ok a, s, []).

Definition bind {A B} (m : M A) (k : A -> M B) : M B :=
  fun w s =>
    match m w s with
    | (Ok a, s1, evs1) =>
        let '(r, s2, evs2) := k a w s1 in (r, s2, evs1 ++ evs2)
    | (Raise e, s1, evs1) => (Raise e, s1, evs1)
    end.

Notation "x <- m ;; k" := (bind m (fun x => k))
  (at level 100, m at next level, right associativity).
Notation "m ;; k" := (bind m (fun _ => k))
  (at level 100, right associativity).

(** [try: body except Exception as e: handler e] *)
Definition try_except {A} (body : M A) (handler : exn -> M A) : M A :=
  fun w s =>
    match body w s with
    | (Ok a, s1, evs1) => (Ok a, s1, evs1)
    | (Raise e, s1, evs1) =>
        let '(r, s2, evs2) := handler e w s1 in (r, s2, evs1 ++ evs2)
    end.

Definition call {A} (answer : World -> nat -> result A) (ev : result A -> event) : M A :=
  fun w s =>
    let r := answer w (tick s) in
    (r, {| chat_history := chat_history s; tick := S (tick s) |}, [ev r]).

Definition model_generate_content_text (prompt : str) : M str :=
  call model_text (EvGenerate prompt).

Definition cursor_execute (operation : str) (params : option insert_params) : M unit :=
  call cursor_execute_outcome (EvExecute operation params).

Definition cursor_fetchall : M (list Row) :=
  call cursor_fetchall_outcome EvFetchall.

Definition db_commit : M unit :=
  call db_commit_outcome EvCommit.

Definition datetime_now : M timestamp :=
  fun w s =>
    let t := clock w (tick s) in
    (Ok t, {| chat_history := chat_history s; tick := S (tick s) |}, [EvNow t]).

(** Reading the global [chat_history] through [get_chat_context()]. *)
Definition read_chat_context : M str :=
  fun _ s => (Ok (get_chat_context (chat_history s)), s, []).

(** [chat_history.append(x)] *)
Definition chat_history_append (x : turn) : M unit :=
  fun _ s =>
    (Ok tt, {| chat_history := deque_append (chat_history s) x; tick := tick s |}, []).

Definition generate_sql (user_input : str) : M str :=
  context <- read_chat_context ;;
  text <- model_generate_content_text (sql_prompt context user_input) ;;
  ret (strip_fence text).

Definition format_response (raw_results : pyval) (user_input : str) : M str :=
  context <- read_chat_context ;;
  text <- model_generate_content_text
            (reply_prompt context user_input (py_format raw_results)) ;;
  ret (strip text).

(** ** 6. FastAPI setup *)

(** [{"error": str(e)}] *)
Definition error_descriptor (e : exn) : pyval :=
  PyDict [(lit "error", PyStr (exn_str e))].

(** [root()] *)
Definition root : pyval :=
  PyDict [(lit "message",
           PyStr (lit "Punjab Bus Assistant API is running " ++ [128653%N]))].

Definition chat_endpoint (req : ChatRequest) : M pyval :=
  let user_input := message req in
  let user_id := user_id req in
  sql_query <- generate_sql user_input ;;
  results <- try_except
               (cursor_execute sql_query None ;;
                rows <- cursor_fetchall ;;
                ret (PyRows rows))
               (fun e => ret (error_descriptor e)) ;;
  response_text <- format_response results user_input ;;
  chat_history_append (user_input, response_text) ;;
  now <- datetime_now ;;
  cursor_execute insert_chat (Some (user_id, user_input, response_text, now)) ;;
  db_commit ;;
  ret (PyDict [(lit "user_message", PyStr user_input);
               (lit "sql_query", PyStr sql_query);
               (lit "results", results);
               (lit "bot_response", PyStr response_text)]).

(** ** The HTTP layer

    What the FastAPI [app] does with a request.  When the route function
    raises, it answers 500.  When the route function returns, FastAPI encodes
    the returned value as JSON and answers 200 with it; the encoding happens
    after the handler is done and can itself fail (a fetched row holding bytes
    that are not text, for one), and then the answer is 500 as well. *)
Record http_response := { status_code : Z; body : pyval }.

(** Whether FastAPI's JSON encoding of a returned value succeeds. *)
Variable json_encodable : pyval -> bool.

Inductive request :=
| GET_root
| POST_chat (uid : option Z) (msg : str).

Definition app_handle (r : request) (w : World) (s : state) : http_response * state * list event :=
  match r with
  | GET_root => ({| status_code := 200; body := root |}, s, [])
  | POST_chat uid msg =>
      match chat_endpoint (ChatRequest_init uid msg) w s with
      | (Ok d, s1, evs) =>
          (if json_encodable d
           then {| status_code := 200; body := d |}
           else {| status_code := 500; body := PyStr (lit "Internal Server Error") |},
           s1, evs)
      | (Raise _, s1, evs) =>
          ({| status_code := 500; body := PyStr (lit "Internal Server Error") |}, s1, evs)
      end
  end.

(** The process serving a sequence of requests, one after the other. *)
Fixpoint serve (rs : list request) (w : World) (s : state)
  : list http_response * state * list event :=
  match rs with
  | [] => ([], s, [])
  | r :: rs' =>
      let '(resp, s1, evs1) := app_handle r w s in
      let '(resps, s2, evs2) := serve rs' w s1 in
      (resp :: resps, s2, evs1 ++ evs2)
  end.

(** The keys of a dict, in insertion order. *)
Definition keys (d : pyval) : list str :=
  match d with
  | PyDict items => map fst items
  | _ => []
  end.

(** [d[k]] *)
Fixpoint lookup_items (k : str) (items : list (str * pyval)) : option pyval :=
  match items with
  | [] => None
  | (k', v) :: rest => if str_eqb k k' then Some v else lookup_items k rest
  end.

Definition getitem (d : pyval) (k : str) : option pyval :=
  match d with
  | PyDict items => lookup_items k items
  | _ => None
  end.

(** The three components of a run. *)
Definition outcome {X} (run : X * state * list event) : X := fst (fst run).
Definition final_state {X} (run : X * state * list event) : state := snd (fst run).
Definition events {X} (run : X * state * list event) : list event := snd run.

(** The same call with the [user_id] of a chat-log insert blanked out. *)
Definition forget_user_id (ev : event) : event :=
  match ev with
  | EvExecute op (Some (_, m, r, t)) res => EvExecute op (Some (0%Z, m, r, t)) res
  | _ => ev
  end.

End Service.

Arguments PyStr {Row} s.
Arguments PyDict {Row} items.
Arguments EvGenerate {Row} prompt r.
Arguments EvExecute {Row} operation params r.
Arguments EvCommit {Row} r.
Arguments EvNow {Row} t.
Arguments root {Row}.
Arguments error_descriptor {Row} e.
Arguments forget_user_id {Row} ev.

(** ** The context window as a plain sequence *)

(** The deque after appending [ts], in order, to an empty one. *)
Definition appended (ts : list turn) : deque := fold_left deque_append ts deque_new.

(** The transcript in the specification's words: one block
    [User: <input>], newline, [Bot: <output>] per turn, the blocks joined by
    newlines, oldest first. *)
Definition transcript_spec (ts : list turn) : str :=
  join (lit "
") (map (fun t => lit "User: " ++ fst t ++ lit "
" ++ lit "Bot: " ++ snd t) ts).

(** The last [n] elements of a list. *)
Definition lastn {A} (n : nat) (l : list A) : list A := skipn (length l - n) l.

(** ** A small deployment, to evaluate the handler on *)

(** A row as a list of columns with their rendered values. *)
Definition sample_row : Type := list (str * str).

(** A stand-in for Python's rendering of a query result. *)
Definition sample_format (v : pyval sample_row) : str :=
  match v with
  | PyStr s => s
  | PyRows _ => lit "[]"
  | PyDict [(_, PyStr m)] => lit "{'error': '" ++ m ++ lit "'}"
  | PyDict _ => lit "{}"
  end.

(** A model answer wrapped in a code fence, and one that is not. *)
Definition fenced_answer : str := lit "```sql
SELECT 1;
```".

Definition plain_answer : str := lit "SELECT * FROM buses".

Definition unknown_column : exn := Exception (lit "Unknown column").
Definition server_gone : exn := Exception (lit "MySQL server has gone away").

Definition sample_world (model : nat -> result str)
    (execute commit : nat -> result unit) : World sample_row :=
  {| model_text := model;
     cursor_execute_outcome := execute;
     cursor_fetchall_outcome := fun _ => Ok [];
     db_commit_outcome := commit;
     clock := fun n => Z.of_nat n |}.

(** Every call succeeds; the model answers with the fenced text. *)
Definition healthy_world : World sample_row :=
  sample_world (fun _ => Ok fenced_answer) (fun _ => Ok tt) (fun _ => Ok tt).

(** The model answers with the unfenced text. *)
Definition plain_world : World sample_row :=
  sample_world (fun _ => Ok plain_answer) (fun _ => Ok tt) (fun _ => Ok tt).

(** The second collaborator call, the query, raises. *)
Definition bad_query_world : World sample_row :=
  sample_world (fun _ => Ok fenced_answer)
    (fun n => if Nat.eqb n 1 then Raise unknown_column else Ok tt)
    (fun _ => Ok tt).

(** Every commit raises. *)
Definition failing_commit_world : World sample_row :=
  sample_world (fun _ => Ok fenced_answer) (fun _ => Ok tt) (fun _ => Raise server_gone).

(** Rows of text always encode. *)
Definition sample_encodable (v : pyval sample_row) : bool := true.

Definition hello : ChatRequest := ChatRequest_init None (lit "Show all buses").
Definition again : ChatRequest := ChatRequest_init (Some 7%Z) (lit "And from Ludhiana?").

Definition healthy_run := chat_endpoint sample_format hello healthy_world initial_state.
Definition bad_query_run := chat_endpoint sample_format hello bad_query_world initial_state.
Definition failing_commit_run :=
  chat_endpoint sample_format hello failing_commit_world initial_state.

(** What [healthy_run] returns. *)
Definition healthy_response : pyval sample_row :=
  PyDict [(lit "user_message", PyStr (lit "Show all buses"));
          (lit "sql_query", PyStr (lit "
SELECT 1;
"));
          (lit "results", PyRows []);
          (lit "bot_response", PyStr fenced_answer)].

Definition six_turns : list turn :=
  [(lit "q1", lit "a1"); (lit "q2", lit "a2"); (lit "q3", lit "a3");
   (lit "q4", lit "a4"); (lit "q5", lit "a5"); (lit "q6", lit "a6")].

(** ** A deployment whose table has a binary column *)

Inductive blob_value :=
| BText (s : str)
| BBytes (b : list N).

Definition blob_row : Type := list (str * blob_value).

(** The one row the query fetches: a photo column holding the byte [0xFF]. *)
Definition photo_rows : list blob_row := [[(lit "photo", BBytes [255%N])]].

(** A stand-in for Python's rendering of a query result. *)
Definition blob_format (v : pyval blob_row) : str :=
  match v with
  | PyStr s => s
  | PyRows [] => lit "[]"
  | PyRows _ => lit "[{'photo': b'\xff'}]"
  | PyDict _ => lit "{}"
  end.

Definition has_undecodable_bytes (r : blob_row) : bool :=
  existsb (fun kv => match snd kv with
                     | BBytes b => existsb (N.eqb 255) b
                     | BText _ => false
                     end) r.

(** A stand-in for the JSON encoding: it decodes bytes as UTF-8, and no
    UTF-8 text holds the byte [0xFF]. *)
Definition blob_encodable (v : pyval blob_row) : bool :=
  match v with
  | PyStr _ => true
  | PyRows rows => negb (existsb has_undecodable_bytes rows)
  | PyDict items =>
      forallb (fun kv => match snd kv with
                         | PyRows rows => negb (existsb has_undecodable_bytes rows)
                         | _ => true
                         end) items
  end.

(** Every call succeeds; the query fetches [photo_rows]. *)
Definition blob_world : World blob_row :=
  {| model_text := fun _ => Ok fenced_answer;
     cursor_execute_outcome := fun _ => Ok tt;
     cursor_fetchall_outcome := fun _ => Ok photo_rows;
     db_commit_outcome := fun _ => Ok tt;
     clock := fun n => Z.of_nat n |}.

Definition blob_run := chat_endpoint blob_format hello blob_world initial_state.

(** What [blob_run] returns. *)
Definition blob_response : pyval blob_row :=
  PyDict [(lit "user_message", PyStr (lit "Show all buses"));
          (lit "sql_query", PyStr (lit "
SELECT 1;
"));
          (lit "results", PyRows photo_rows);
          (lit "bot_response", PyStr fenced_answer)].

(** ** Reading a call log *)

(** The turns whose chat-log insert was attempted, in call order. *)
Fixpoint attempted_turns {Row} (evs : list (event Row)) : list turn :=
  match evs with
  | [] => []
  | EvExecute _ (Some (_, m, r, _)) _ :: rest => (m, r) :: attempted_turns rest
  | _ :: rest => attempted_turns rest
  end.

Definition is_generate {Row} (ev : event Row) : bool :=
  match ev with EvGenerate _ _ => true | _ => false end.

Definition is_database_call {Row} (ev : event Row) : bool :=
  match ev with
  | EvExecute _ _ _ | EvFetchall _ | EvCommit _ => true
  | _ => false
  end.

(** The model never answers. *)
Definition model_down : exn := Exception (lit "503 Service Unavailable").

Definition model_down_world : World sample_row :=
  sample_world (fun _ => Raise model_down) (fun _ => Ok tt) (fun _ => Ok tt).

Definition model_down_run :=
  chat_endpoint sample_format hello model_down_world initial_state.

Unset Implicit Arguments.

(** ** Facts about the context window *)

Lemma deque_append_length (d : deque) (x : turn) :
  length d <= MAXLEN -> length (deque_append d x) <= MAXLEN.
Proof.
  unfold deque_append, MAXLEN. intros Hd.
  destruct (5 <? length (d ++ [x])) eqn:E.
  - apply Nat.ltb_lt in E. rewrite length_app in E.
    destruct d as [|y d']; simpl in *; [lia|].
    rewrite length_app. simpl. lia.
  - apply Nat.ltb_ge in E. exact E.
Qed.

Lemma tl_skipn {A} (k : nat) (l : list A) : tl (skipn k l) = skipn (S k) l.
Proof.
  revert l. induction k as [|k IH]; intros [|a l]; simpl; auto.
Qed.

Lemma deque_append_lastn (ts : list turn) (x : turn) :
  deque_append (lastn MAXLEN ts) x = lastn MAXLEN (ts ++ [x]).
Proof.
  unfold deque_append, lastn, MAXLEN.
  rewrite !length_app, length_skipn. cbn [length].
  destruct (5 <? length ts - (length ts - 5) + 1) eqn:E.
  - apply Nat.ltb_lt in E.
    rewrite skipn_app.
    replace (length ts + 1 - 5 - length ts) with 0 by lia.
    replace (length ts + 1 - 5) with (S (length ts - 5)) by lia.
    rewrite <- tl_skipn. change (skipn 0 [x]) with [x].
    destruct (skipn (length ts - 5) ts) eqn:S1.
    + apply (f_equal (@length _)) in S1. rewrite length_skipn in S1.
      cbn [length] in S1. lia.
    + reflexivity.
  - apply Nat.ltb_ge in E.
    replace (length ts - 5) with 0 by lia.
    replace (length ts + 1 - 5) with 0 by lia.
    reflexivity.
Qed.

Lemma appended_snoc (ts : list turn) (x : turn) :
  appended (ts ++ [x]) = deque_append (appended ts) x.
Proof. unfold appended. rewrite fold_left_app. reflexivity. Qed.

Lemma appended_lastn (ts : list turn) : appended ts = lastn MAXLEN ts.
Proof.
  induction ts as [|x ts IH] using rev_ind.
  - reflexivity.
  - rewrite appended_snoc, IH. apply deque_append_lastn.
Qed.

Lemma get_chat_context_spec (h : deque) : get_chat_context h = transcript_spec h.
Proof. reflexivity. Qed.

(** C3: after appending at most 5 turns to the empty window the transcript
    is the turns in arrival order, each as [User: <input>], newline,
    [Bot: <output>], joined by newlines; after more than 5 turns it is the
    transcript of the 5 most recent ones, the oldest having been dropped
    first. *)
Theorem transcript_of_appended_turns (ts : list turn) :
  (length ts <= 5 -> get_chat_context (appended ts) = transcript_spec ts) /\
  (5 < length ts ->
   length (lastn 5 ts) = 5 /\
   get_chat_context (appended ts) = transcript_spec (lastn 5 ts)).
Proof.
  rewrite appended_lastn, get_chat_context_spec. change MAXLEN with 5.
  split; intros H.
  - unfold lastn. replace (length ts - 5) with 0 by lia. reflexivity.
  - split; [|reflexivity]. unfold lastn. rewrite length_skipn. lia.
Qed.

(** ** Facts about strings *)

Lemma contains_refl (s : str) : contains s s.
Proof. exists [], []. rewrite app_nil_r. reflexivity. Qed.

Lemma contains_trans (a b c : str) : contains a b -> contains b c -> contains a c.
Proof.
  intros (p1 & q1 & ->) (p2 & q2 & ->).
  exists (p2 ++ p1), (q1 ++ q2). rewrite <- !app_assoc. reflexivity.
Qed.

Lemma contains_app_l (a s t : str) : contains a s -> contains a (s ++ t).
Proof.
  intros (p & q & ->). exists p, (q ++ t). rewrite <- !app_assoc. reflexivity.
Qed.

Lemma contains_app_r (a s t : str) : contains a t -> contains a (s ++ t).
Proof.
  intros (p & q & ->). exists (s ++ p), q. rewrite <- !app_assoc. reflexivity.
Qed.

Lemma join_snoc (sep : str) (l : list str) (y : str) :
  exists pre, join sep (l ++ [y]) = pre ++ y.
Proof.
  induction l as [|a l IH].
  - exists []. reflexivity.
  - destruct IH as [pre IH]. exists (a ++ sep ++ pre).
    cbn [List.app join]. destruct (l ++ [y]) eqn:E.
    + destruct l; discriminate.
    + rewrite IH, <- !app_assoc. reflexivity.
Qed.

Lemma deque_append_snoc (d : deque) (x : turn) :
  exists pre, deque_append d x = pre ++ [x].
Proof.
  unfold deque_append. destruct (MAXLEN <? length (d ++ [x])) eqn:E.
  - destruct d as [|y d'].
    + discriminate.
    + exists d'. reflexivity.
  - exists d. reflexivity.
Qed.

Lemma appended_turn_in_context (h : deque) (x : turn) :
  contains (format_turn x) (get_chat_context (deque_append h x)).
Proof.
  destruct (deque_append_snoc h x) as [pre ->].
  unfold get_chat_context. rewrite map_app. cbn [map].
  destruct (join_snoc NL (map format_turn pre) (format_turn x)) as [p ->].
  exists p, []. rewrite app_nil_r. reflexivity.
Qed.

Lemma context_in_sql_prompt (context user_input : str) :
  contains context (sql_prompt context user_input).
Proof.
  unfold sql_prompt.
  do 4 apply contains_app_r. apply contains_app_l, contains_refl.
Qed.

Lemma turn_parts_in_format_turn (t : turn) :
  contains (fst t) (format_turn t) /\ contains (snd t) (format_turn t).
Proof.
  unfold format_turn. split.
  - apply contains_app_r, contains_app_l, contains_refl.
  - do 4 apply contains_app_r. apply contains_refl.
Qed.

(** ** Facts about [str.strip] *)

Lemma lstrip_by_app_all (p : char -> bool) (a s : str) :
  forallb p a = true -> lstrip_by p (a ++ s) = lstrip_by p s.
Proof.
  induction a as [|c a IH]; cbn [forallb List.app lstrip_by]; [reflexivity|].
  intros H. apply andb_prop in H as [Hc Ha]. rewrite Hc. auto.
Qed.

Lemma lstrip_by_stop (p : char -> bool) (c : char) (s : str) :
  p c = false -> lstrip_by p (c :: s) = c :: s.
Proof. intros H. cbn [lstrip_by]. rewrite H. reflexivity. Qed.

Lemma lstrip_by_head (p : char -> bool) (s : str) (c : char) (rest : str) :
  lstrip_by p s = c :: rest -> p c = false.
Proof.
  induction s as [|x s IH]; cbn [lstrip_by]; [discriminate|].
  destruct (p x) eqn:E; [exact IH|].
  intros H. injection H as -> _. exact E.
Qed.

Lemma lstrip_by_suffix (p : char -> bool) (s : str) :
  exists a, s = a ++ lstrip_by p s.
Proof.
  induction s as [|x s [a IH]]; [exists []; reflexivity|].
  cbn [lstrip_by]. destruct (p x).
  - exists (x :: a). cbn [List.app]. f_equal. exact IH.
  - exists []. reflexivity.
Qed.

Lemma forallb_rev (p : char -> bool) (l : str) :
  forallb p l = true -> forallb p (rev l) = true.
Proof.
  rewrite !forallb_forall. intros H x Hx. apply H, in_rev, Hx.
Qed.

Lemma rstrip_by_app_all (p : char -> bool) (s b : str) :
  forallb p b = true -> rstrip_by p (s ++ b) = rstrip_by p s.
Proof.
  intros H. unfold rstrip_by. rewrite rev_app_distr, lstrip_by_app_all; auto using forallb_rev.
Qed.

Lemma rstrip_by_stop (p : char -> bool) (s : str) (c : char) :
  p c = false -> rstrip_by p (s ++ [c]) = s ++ [c].
Proof.
  intros H. unfold rstrip_by. rewrite rev_app_distr. cbn [rev List.app].
  rewrite lstrip_by_stop by exact H.
  cbn [rev]. rewrite rev_involutive. reflexivity.
Qed.

Lemma rstrip_by_last (p : char -> bool) (s pre : str) (c : char) :
  rstrip_by p s = pre ++ [c] -> p c = false.
Proof.
  unfold rstrip_by. intros H. apply (f_equal (@rev char)) in H.
  rewrite rev_involutive, rev_app_distr in H. cbn [rev List.app] in H.
  exact (lstrip_by_head _ _ _ _ H).
Qed.

Lemma rstrip_by_prefix (p : char -> bool) (s : str) :
  exists b, s = rstrip_by p s ++ b.
Proof.
  unfold rstrip_by. destruct (lstrip_by_suffix p (rev s)) as [a E].
  exists (rev a). rewrite <- rev_app_distr, <- E, rev_involutive. reflexivity.
Qed.

(** What [strip] returns when the text is a run of strippable characters, a
    core that neither starts nor ends with one, and another such run. *)
Lemma strip_by_core (p : char -> bool) (a m b : str) :
  forallb p a = true -> forallb p b = true ->
  (exists c r, m = c :: r /\ p c = false) ->
  (exists r d, m = r ++ [d] /\ p d = false) ->
  strip_by p (a ++ m ++ b) = m.
Proof.
  intros Ha Hb (c & r & E1 & Hc) (r' & d & E2 & Hd). unfold strip_by.
  rewrite lstrip_by_app_all by exact Ha.
  rewrite E1. cbn [List.app]. rewrite lstrip_by_stop by exact Hc.
  change (c :: r ++ b) with ((c :: r) ++ b). rewrite <- E1.
  rewrite rstrip_by_app_all by exact Hb.
  rewrite E2. apply rstrip_by_stop, Hd.
Qed.

Lemma strip_by_contains (p : char -> bool) (s : str) : contains (strip_by p s) s.
Proof.
  unfold strip_by.
  destruct (lstrip_by_suffix p s) as [a Ea].
  destruct (rstrip_by_prefix p (lstrip_by p s)) as [b Eb].
  exists a, b. rewrite <- Eb. exact Ea.
Qed.

Lemma strip_by_head (p : char -> bool) (s : str) (c : char) (rest : str) :
  strip_by p s = c :: rest -> p c = false.
Proof.
  unfold strip_by. intros H.
  destruct (rstrip_by_prefix p (lstrip_by p s)) as [b Eb].
  rewrite H in Eb. cbn [List.app] in Eb. exact (lstrip_by_head _ _ _ _ Eb).
Qed.

Lemma strip_by_last (p : char -> bool) (s pre : str) (c : char) :
  strip_by p s = pre ++ [c] -> p c = false.
Proof. unfold strip_by. apply rstrip_by_last. Qed.

Lemma strip_by_fixed (p : char -> bool) (s : str) :
  (forall c rest, s = c :: rest -> p c = false) ->
  (forall pre c, s = pre ++ [c] -> p c = false) ->
  strip_by p s = s.
Proof.
  intros Hh Hl. destruct s as [|c r]; [reflexivity|].
  destruct (exists_last (l:=c :: r)) as (pre & d & E); [discriminate|].
  rewrite <- (app_nil_r (c :: r)) at 1.
  change ((c :: r) ++ []) with ([] ++ (c :: r) ++ []).
  apply strip_by_core; try reflexivity.
  - exists c, r. split; [reflexivity|]. eapply Hh. reflexivity.
  - exists pre, d. split; [exact E|]. eapply Hl. exact E.
Qed.

Lemma strip_by_idempotent (p : char -> bool) (s : str) :
  strip_by p (strip_by p s) = strip_by p s.
Proof.
  apply strip_by_fixed.
  - intros c rest. apply strip_by_head.
  - intros pre c. apply strip_by_last.
Qed.

Lemma strip_by_fixed_ends (p : char -> bool) (s : str) :
  (forall c, hd_error s = Some c -> p c = false) ->
  (forall c, hd_error (rev s) = Some c -> p c = false) ->
  strip_by p s = s.
Proof.
  intros Hh Hl. apply strip_by_fixed.
  - intros c rest ->. apply Hh. reflexivity.
  - intros pre c ->. apply Hl. rewrite rev_app_distr. reflexivity.
Qed.

Lemma strip_by_ends (p : char -> bool) (s : str) :
  (forall c, hd_error (strip_by p s) = Some c -> p c = false) /\
  (forall c, hd_error (rev (strip_by p s)) = Some c -> p c = false).
Proof.
  split; intros c H.
  - destruct (strip_by p s) as [|x rest] eqn:E; [discriminate|].
    injection H as ->. exact (strip_by_head _ _ _ _ E).
  - destruct (rev (strip_by p s)) as [|x rest] eqn:E; [discriminate|].
    injection H as ->. apply (f_equal (@rev char)) in E.
    rewrite rev_involutive in E. cbn [rev] in E. exact (strip_by_last _ _ _ _ E).
Qed.

Lemma strip_by_keeps (p : char -> bool) (m : str) :
  (exists c r, m = c :: r /\ p c = false) ->
  (exists r d, m = r ++ [d] /\ p d = false) ->
  strip_by p m = m.
Proof.
  intros H1 H2. rewrite <- (app_nil_r m) at 1.
  change (m ++ []) with ([] ++ m ++ []). apply strip_by_core; auto.
Qed.

Lemma fence_chars_cover_backtick (c : char) :
  in_chars (lit "```sql") c = false -> in_chars (lit "```") c = false.
Proof.
  cbn. unfold char_eqb. destruct (N.eqb c 96); [discriminate|reflexivity].
Qed.

(** X1: for every inner text, the answer [```sql], newline, inner,
    newline, [```] is returned by the fence removal of [generate_sql] as
    newline, inner, newline: the markers go, the newlines inside them stay. *)
Theorem strip_fence_keeps_inner_newlines (inner : str) :
  strip_fence (lit "```sql" ++ NL ++ inner ++ NL ++ lit "```") = NL ++ inner ++ NL.
Proof.
  assert (E : lit "```sql" ++ NL ++ inner ++ NL ++ lit "```"
              = lit "```sql" ++ (NL ++ inner ++ NL) ++ lit "```")
    by (rewrite <- !app_assoc; reflexivity).
  assert (Hh : exists c r, NL ++ inner ++ NL = c :: r /\ c = 10%N)
    by (exists 10%N, (inner ++ NL); split; reflexivity).
  assert (Hl : exists r d, NL ++ inner ++ NL = r ++ [d] /\ d = 10%N)
    by (exists (NL ++ inner), 10%N; split; [rewrite <- app_assoc|]; reflexivity).
  assert (A : strip_by isspace (lit "```sql" ++ NL ++ inner ++ NL ++ lit "```")
              = lit "```sql" ++ NL ++ inner ++ NL ++ lit "```").
  { apply strip_by_keeps.
    - eexists 96%N, _. split; reflexivity.
    - exists (lit "```sql" ++ NL ++ inner ++ NL ++ lit "``"), 96%N.
      split; [|reflexivity]. rewrite <- !app_assoc. reflexivity. }
  assert (B : strip_by (in_chars (lit "```sql"))
                (lit "```sql" ++ (NL ++ inner ++ NL) ++ lit "```")
              = NL ++ inner ++ NL).
  { apply strip_by_core; try reflexivity.
    - destruct Hh as (c & r & -> & ->). exists 10%N, r. split; reflexivity.
    - destruct Hl as (r & d & -> & ->). exists r, 10%N. split; reflexivity. }
  assert (C : strip_by (in_chars (lit "```")) (NL ++ inner ++ NL) = NL ++ inner ++ NL).
  { apply strip_by_keeps.
    - destruct Hh as (c & r & -> & ->). exists 10%N, r. split; reflexivity.
    - destruct Hl as (r & d & -> & ->). exists r, 10%N. split; reflexivity. }
  unfold strip_fence, strip, strip_chars.
  rewrite A, E, B, C. reflexivity.
Qed.

(** X2: when the white-space-trimmed model answer neither starts nor ends
    with one of the characters [`], [s], [q], [l], the fence removal of
    [generate_sql] returns exactly the trimmed answer. *)
Theorem strip_fence_leaves_trimmed_text (text : str) :
  (forall c, hd_error (strip text) = Some c -> in_chars (lit "```sql") c = false) ->
  (forall c, hd_error (rev (strip text)) = Some c -> in_chars (lit "```sql") c = false) ->
  strip_fence text = strip text.
Proof.
  intros Hh Hl. unfold strip_fence, strip_chars.
  rewrite (strip_by_fixed_ends (in_chars (lit "```sql")) (strip text) Hh Hl).
  apply strip_by_fixed_ends; intros c E; apply fence_chars_cover_backtick; auto.
Qed.

(** X3: what [generate_sql] returns is always a contiguous piece of the
    model's answer; the post-processing only removes characters at the two
    ends. *)
Theorem strip_fence_is_a_substring (text : str) : contains (strip_fence text) text.
Proof.
  unfold strip_fence, strip, strip_chars.
  eapply contains_trans; [apply strip_by_contains|].
  eapply contains_trans; [apply strip_by_contains|].
  apply strip_by_contains.
Qed.

(** X4: the text [generate_sql] returns never starts and never ends with
    a backtick. *)
Theorem strip_fence_ends_without_backtick (text : str) :
  hd_error (strip_fence text) <> Some 96%N /\
  hd_error (rev (strip_fence text)) <> Some 96%N.
Proof.
  unfold strip_fence, strip_chars.
  destruct (strip_by_ends (in_chars (lit "```"))
              (strip_by (in_chars (lit "```sql")) (strip text))) as [Hh Hl].
  split; intros H; [apply Hh in H | apply Hl in H]; discriminate H.
Qed.

Lemma attempted_turns_app {Row} (a b : list (event Row)) :
  attempted_turns (a ++ b) = attempted_turns a ++ attempted_turns b.
Proof.
  induction a as [|ev a IH]; [reflexivity|].
  destruct ev as [| op [[[[u m] r] t]|] res | | |]; cbn [List.app attempted_turns];
    rewrite IH; reflexivity.
Qed.

Lemma join_snoc_cons (sep : str) (l : list str) (x y : str) :
  join sep (l ++ [x ++ sep ++ y]) = join sep (l ++ [x; y]).
Proof.
  induction l as [|a l IH]; [reflexivity|].
  cbn [List.app join]. rewrite IH.
  destruct l; reflexivity.
Qed.

(** X14: the transcript does not delimit turns: a turn whose reply
    embeds a newline and a [User: ...]/[Bot: ...] block renders exactly as two
    separate turns. *)
Theorem transcript_reads_embedded_turn_as_turn (h : deque) (u b u' b' : str) :
  get_chat_context (h ++ [(u, b ++ NL ++ lit "User: " ++ u' ++ NL ++ lit "Bot: " ++ b')])
  = get_chat_context (h ++ [(u, b); (u', b')]).
Proof.
  unfold get_chat_context. rewrite !map_app. cbn [map].
  rewrite <- join_snoc_cons. do 2 f_equal.
  unfold format_turn. cbn [fst snd]. rewrite <- !app_assoc. reflexivity.
Qed.

(** ** Facts about the handler *)

Section ServiceFacts.

Variable Row : Type.
Variable py_format : pyval Row -> str.
Variable json_encodable : pyval Row -> bool.

(** Unfolds the handler down to the collaborators' answers. *)
Ltac unfold_handler :=
  cbv beta iota zeta delta
    [chat_endpoint generate_sql format_response bind ret try_except call
     model_generate_content_text cursor_execute cursor_fetchall db_commit
     datetime_now read_chat_context chat_history_append
     outcome final_state events];
  cbn [tick chat_history].

(** Splits a run on every answer it reads, innermost first. *)
Ltac case_answers :=
  repeat match goal with
  | |- context [match ?x with _ => _ end] =>
      lazymatch x with
      | context [match _ with _ => _ end] => fail
      | _ => destruct x eqn:?
      end;
      cbv beta iota zeta; cbn [tick chat_history fst snd List.app]
  end;
  repeat match goal with u : unit |- _ => destruct u end.

Ltac run_handler := unfold_handler; case_answers.

(** Decides which of the listed calls a given call is. *)
Ltac pick_event H :=
  cbn [In] in H;
  repeat match type of H with
  | _ \/ _ => destruct H as [H|H]
  end;
  try contradiction; try discriminate H;
  try (injection H as ?; subst).

(** The first thing a chat request does is to ask the model for SQL, with the
    prompt built from the current window. *)
Lemma chat_endpoint_first_event (req : ChatRequest) (w : World Row) (s : state) :
  exists r rest,
    events (chat_endpoint py_format req w s) =
    EvGenerate (sql_prompt (get_chat_context (chat_history s)) (message req)) r :: rest.
Proof. run_handler; eexists _, _; reflexivity. Qed.

Lemma chat_endpoint_keeps_bound (req : ChatRequest) (w : World Row) (s : state) :
  length (chat_history s) <= MAXLEN ->
  length (chat_history (final_state (chat_endpoint py_format req w s))) <= MAXLEN.
Proof.
  intros H. run_handler; cbn [chat_history]; auto using deque_append_length.
Qed.

Lemma app_handle_keeps_bound (r : request) (w : World Row) (s : state) :
  length (chat_history s) <= MAXLEN ->
  length (chat_history (final_state (app_handle py_format json_encodable r w s))) <= MAXLEN.
Proof.
  intros H. destruct r as [|uid msg]; [exact H|].
  pose proof (chat_endpoint_keeps_bound (ChatRequest_init uid msg) w s H) as B.
  unfold app_handle, final_state in *.
  destruct (chat_endpoint py_format (ChatRequest_init uid msg) w s) as [[[d|e] s1] evs];
    exact B.
Qed.

Lemma serve_keeps_bound (rs : list request) (w : World Row) (s : state) :
  length (chat_history s) <= MAXLEN ->
  length (chat_history (final_state (serve py_format json_encodable rs w s))) <= MAXLEN.
Proof.
  revert s. induction rs as [|r rs IH]; intros s H; [exact H|].
  pose proof (app_handle_keeps_bound r w s H) as B.
  cbn [serve]. unfold final_state in *.
  destruct (app_handle py_format json_encodable r w s) as [[resp s1] evs1].
  specialize (IH s1 B).
  destruct (serve py_format json_encodable rs w s1) as [[resps s2] evs2]. exact IH.
Qed.

(** C4: whatever requests the process has served since start-up, and
    whatever the collaborators answered, the context window holds at most 5
    turns. *)
Theorem context_window_at_most_five (rs : list request) (w : World Row) :
  length (chat_history (final_state (serve py_format json_encodable rs w initial_state))) <= 5.
Proof. apply serve_keeps_bound. cbn. unfold MAXLEN. lia. Qed.

Lemma serve_snoc (rs : list request) (r : request) (w : World Row) (s : state) :
  serve py_format json_encodable (rs ++ [r]) w s =
  let '(resps, s1, evs1) := serve py_format json_encodable rs w s in
  let '(resp, s2, evs2) := app_handle py_format json_encodable r w s1 in
  (resps ++ [resp], s2, evs1 ++ evs2).
Proof.
  revert s. induction rs as [|r0 rs IH]; intros s.
  - cbn [List.app serve]. destruct (app_handle py_format json_encodable r w s) as [[resp s2] evs2].
    rewrite app_nil_r. reflexivity.
  - cbn [List.app serve]. destruct (app_handle py_format json_encodable r0 w s) as [[resp0 s0] evs0].
    rewrite IH. destruct (serve py_format json_encodable rs w s0) as [[resps s1] evs1].
    destruct (app_handle py_format json_encodable r w s1) as [[resp s2] evs2].
    rewrite app_assoc. reflexivity.
Qed.

(** C8: a [GET /] served after any sequence of requests answers 200 with
    the one-field liveness dict, and changes neither the state nor the call
    log. *)
Theorem root_payload_is_constant (rs : list request) (w : World Row) (s : state) :
  let before := serve py_format json_encodable rs w s in
  let after := serve py_format json_encodable (rs ++ [GET_root]) w s in
  outcome after =
    outcome before
    ++ [{| status_code := 200;
           body := PyDict [(lit "message",
                            PyStr (lit "Punjab Bus Assistant API is running "
                                   ++ [128653%N]))] |}]
  /\ final_state after = final_state before
  /\ events after = events before.
Proof.
  cbv zeta. rewrite serve_snoc.
  destruct (serve py_format json_encodable rs w s) as [[resps s1] evs1].
  cbn [app_handle outcome final_state events fst snd].
  rewrite app_nil_r. repeat split.
Qed.

(** C10: two chat requests with the same message, from the same state and
    with the same collaborator answers, that differ only in [user_id] have the
    same outcome (the same [sql_query], [results] and [bot_response], or the
    same exception) and leave the same context window; their call logs differ
    at most in the [user_id] of the chat-log insert. *)
Theorem user_id_only_reaches_chat_log (w : World Row) (s : state) (msg : str) (u1 u2 : Z) :
  let run1 := chat_endpoint py_format {| user_id := u1; message := msg |} w s in
  let run2 := chat_endpoint py_format {| user_id := u2; message := msg |} w s in
  outcome run1 = outcome run2 /\
  final_state run1 = final_state run2 /\
  map forget_user_id (events run1) = map forget_user_id (events run2).
Proof. cbv zeta. run_handler; cbn [user_id message]; repeat split. Qed.

(** C5: a chat request that ends without an unhandled error, that is,
    whose handler returns and whose returned dict FastAPI can encode, is
    answered with status 200 and that dict; a returned dict that cannot be
    encoded is an unhandled error of the framework and is answered with 500.
    The dict a handler returns has exactly the keys [user_message],
    [sql_query], [results], [bot_response]; and when the body has no
    [user_id] the chat-log row is written for user 1. *)
Theorem chat_response_shape (w : World Row) (s : state) (uid : option Z) (msg : str)
    (d : pyval Row) (s' : state) (evs : list (event Row)) :
  chat_endpoint py_format (ChatRequest_init uid msg) w s = (Ok d, s', evs) ->
  (json_encodable d = true ->
   app_handle py_format json_encodable (POST_chat uid msg) w s
     = ({| status_code := 200; body := d |}, s', evs)) /\
  (json_encodable d = false ->
   app_handle py_format json_encodable (POST_chat uid msg) w s
     = ({| status_code := 500; body := PyStr (lit "Internal Server Error") |},
        s', evs)) /\
  keys d = [lit "user_message"; lit "sql_query"; lit "results"; lit "bot_response"] /\
  user_id (ChatRequest_init None msg) = 1%Z /\
  (uid = None ->
   exists reply t,
     In (EvExecute insert_chat (Some (1%Z, msg, reply, t)) (Ok tt)) evs).
Proof.
  intros H.
  split; [intros J; cbn [app_handle]; rewrite H, J; reflexivity|].
  split; [intros J; cbn [app_handle]; rewrite H, J; reflexivity|].
  revert H. run_handler; intros H; inversion H; subst; clear H.
  all: split; [reflexivity|]; split; [reflexivity|];
    intros ->; cbn [ChatRequest_init user_id message].
  all: eexists _, _; cbn [In]; auto 10.
Qed.


(** C2: when executing the generated SQL raises (in [cursor.execute] or
    in [cursor.fetchall]), the next collaborator call is the formatting prompt
    built on the descriptor [{error: str(e)}]; a returned response carries
    that descriptor as [results]; and if the handler raises at all, the
    exception comes from a model call, the chat-log insert or the commit. *)
Theorem query_error_is_fed_to_formatting (req : ChatRequest) (w : World Row) (s : state)
    (out : result (pyval Row)) (s' : state) (evs : list (event Row))
    (sql : str) (e : exn) :
  chat_endpoint py_format req w s = (out, s', evs) ->
  In (EvExecute sql None (Raise e)) evs \/ In (EvFetchall (Raise e)) evs ->
  (exists pre q r post,
      evs = pre ++ q
              :: EvGenerate
                   (reply_prompt (get_chat_context (chat_history s)) (message req)
                      (py_format (PyDict [(lit "error", PyStr (exn_str e))])))
                   r
              :: post /\
      (q = EvExecute sql None (Raise e) \/ q = EvFetchall (Raise e))) /\
  (forall d, out = Ok d ->
     getitem d (lit "results") = Some (PyDict [(lit "error", PyStr (exn_str e))])) /\
  (forall e', out = Raise e' ->
     (exists prompt, In (EvGenerate prompt (Raise e')) evs) \/
     (exists params, In (EvExecute insert_chat (Some params) (Raise e')) evs) \/
     In (EvCommit (Raise e')) evs).
Proof.
  run_handler; intros H Q; inversion H; subst; clear H.
  all: destruct Q as [Q|Q]; pick_event Q.
  all: (split; [|split]);
    [ first [ eexists [_], _, _, _; split; [reflexivity|auto]
            | eexists [_; _], _, _, _; split; [reflexivity|auto] ]
    | intros d D; inversion D; subst; reflexivity
    | intros e' D; inversion D; subst; cbn [In]; eauto 12 ].
Qed.

(** A completed chat request returns the four-field dict and has appended
    its turn to the window. *)
Lemma chat_endpoint_Ok_inv (req : ChatRequest) (w : World Row) (s : state)
    (d : pyval Row) (s1 : state) (evs : list (event Row)) :
  chat_endpoint py_format req w s = (Ok d, s1, evs) ->
  exists sql results reply,
    d = PyDict [(lit "user_message", PyStr (message req));
                (lit "sql_query", PyStr sql);
                (lit "results", results);
                (lit "bot_response", PyStr reply)] /\
    chat_history s1 = deque_append (chat_history s) (message req, reply).
Proof.
  run_handler; intros H; inversion H; subst; clear H.
  all: eexists _, _, _; split; reflexivity.
Qed.

(** C6: after a chat request that returned, the next chat request opens
    with the SQL-generation prompt built on the current transcript; that
    prompt, in its transcript section, contains the first request's message
    and its [bot_response] verbatim, in the [User: ...]/[Bot: ...] block. *)
Theorem second_prompt_carries_first_turn (req1 req2 : ChatRequest) (w : World Row)
    (s : state) (d1 : pyval Row) (s1 : state) (evs1 : list (event Row)) :
  chat_endpoint py_format req1 w s = (Ok d1, s1, evs1) ->
  exists reply1 context r rest,
    getitem d1 (lit "bot_response") = Some (PyStr reply1) /\
    events (chat_endpoint py_format req2 w s1)
      = EvGenerate (sql_prompt context (message req2)) r :: rest /\
    context = get_chat_context (chat_history s1) /\
    contains (lit "User: " ++ message req1 ++ NL ++ lit "Bot: " ++ reply1) context /\
    contains (message req1) context /\
    contains reply1 context /\
    contains (lit "User: " ++ message req1 ++ NL ++ lit "Bot: " ++ reply1)
      (sql_prompt context (message req2)) /\
    contains (message req1) (sql_prompt context (message req2)) /\
    contains reply1 (sql_prompt context (message req2)).
Proof.
  intros H.
  destruct (chat_endpoint_Ok_inv _ _ _ _ _ _ H) as (sql & results & reply & -> & A).
  destruct (chat_endpoint_first_event req2 w s1) as (r & rest & E).
  exists reply, (get_chat_context (chat_history s1)), r, rest.
  split; [reflexivity|]. split; [exact E|]. split; [reflexivity|].
  rewrite A.
  pose proof (appended_turn_in_context (chat_history s) (message req1, reply)) as C.
  destruct (turn_parts_in_format_turn (message req1, reply)) as [Cu Cb].
  pose proof (context_in_sql_prompt
                (get_chat_context (deque_append (chat_history s) (message req1, reply)))
                (message req2)) as P.
  assert (Cm : contains (message req1)
                 (get_chat_context (deque_append (chat_history s) (message req1, reply))))
    by (eapply contains_trans; [exact Cu | exact C]).
  assert (Cr : contains reply
                 (get_chat_context (deque_append (chat_history s) (message req1, reply))))
    by (eapply contains_trans; [exact Cb | exact C]).
  repeat split;
    first [ exact C | exact Cm | exact Cr
          | eapply contains_trans; [exact C | exact P]
          | eapply contains_trans; [exact Cm | exact P]
          | eapply contains_trans; [exact Cr | exact P] ].
Qed.

(** C7: when the chat-log insert or the commit raises, the handler raises
    that same exception, the caller gets a 500 without the reply, the failing
    call is the last thing the handler does, and the turn appended to the
    window stays there. *)
Theorem logging_error_fails_the_request (uid : option Z) (msg : str) (w : World Row)
    (s : state) (out : result (pyval Row)) (s' : state) (evs : list (event Row))
    (e : exn) :
  chat_endpoint py_format (ChatRequest_init uid msg) w s = (out, s', evs) ->
  (exists params, In (EvExecute insert_chat (Some params) (Raise e)) evs) \/
  In (EvCommit (Raise e)) evs ->
  out = Raise e /\
  app_handle py_format json_encodable (POST_chat uid msg) w s
    = ({| status_code := 500; body := PyStr (lit "Internal Server Error") |}, s', evs) /\
  (exists pre q,
      evs = pre ++ [q] /\
      (q = EvCommit (Raise e) \/
       exists params, q = EvExecute insert_chat (Some params) (Raise e))) /\
  (exists reply, chat_history s' = deque_append (chat_history s) (msg, reply)).
Proof.
  intros H Q.
  assert (O : out = Raise e /\
              (exists pre q,
                  evs = pre ++ [q] /\
                  (q = EvCommit (Raise e) \/
                   exists params, q = EvExecute insert_chat (Some params) (Raise e))) /\
              (exists reply, chat_history s' = deque_append (chat_history s) (msg, reply))).
  { revert H Q. run_handler; intros H Q; inversion H; subst; clear H.
    all: destruct Q as [[params Q]|Q]; pick_event Q.
    all: cbn [ChatRequest_init message chat_history]; split; [reflexivity|]; split; eauto.
    all: first [ eexists [_; _; _; _; _], _; split; [reflexivity|]
               | eexists [_; _; _; _; _; _], _; split; [reflexivity|]
               | eexists [_; _; _; _], _; split; [reflexivity|] ];
      eauto. }
  destruct O as (-> & L & A). repeat split; auto.
  cbn [app_handle]. rewrite H. reflexivity.
Qed.

(** C9: when the chat-log insert or the commit raises, the turn
    [(user_input, response_text)] of the attempted insert is already in the
    window and stays there, no commit succeeded in that invocation, and the
    SQL-generation prompt of any following chat request contains that turn. *)
Theorem logging_error_leaves_turn_in_window (req : ChatRequest) (w : World Row)
    (s : state) (out : result (pyval Row)) (s' : state) (evs : list (event Row))
    (e : exn) :
  chat_endpoint py_format req w s = (out, s', evs) ->
  (exists params, In (EvExecute insert_chat (Some params) (Raise e)) evs) \/
  In (EvCommit (Raise e)) evs ->
  exists reply t r,
    In (EvExecute insert_chat (Some (user_id req, message req, reply, t)) r) evs /\
    out = Raise e /\
    ~ In (EvCommit (Ok tt)) evs /\
    chat_history s' = deque_append (chat_history s) (message req, reply) /\
    forall req2 : ChatRequest,
    exists r2 rest,
      events (chat_endpoint py_format req2 w s')
        = EvGenerate (sql_prompt (get_chat_context (chat_history s')) (message req2)) r2
          :: rest /\
      contains (format_turn (message req, reply))
        (sql_prompt (get_chat_context (chat_history s')) (message req2)).
Proof.
  intros H Q.
  assert (O : exists reply t r,
             In (EvExecute insert_chat (Some (user_id req, message req, reply, t)) r) evs /\
             out = Raise e /\
             ~ In (EvCommit (Ok tt)) evs /\
             chat_history s' = deque_append (chat_history s) (message req, reply)).
  { revert H Q. run_handler; intros H Q; inversion H; subst; clear H.
    all: destruct Q as [[params Q]|Q]; pick_event Q.
    all: eexists _, _, _; split; [cbn [In]; auto 10|]; split; [reflexivity|];
      split; [|reflexivity].
    all: intros C; pick_event C. }
  destruct O as (reply & t & r & I & -> & NC & A).
  exists reply, t, r. repeat split; auto.
  intros req2. destruct (chat_endpoint_first_event req2 w s') as (r2 & rest & E).
  exists r2, rest. split; [exact E|].
  rewrite A. eapply contains_trans; [apply appended_turn_in_context|].
  apply context_in_sql_prompt.
Qed.

(** Splits a run given as an equation, one case per path through the
    handler. *)
Ltac invert_run H :=
  revert H; run_handler; intros H; inversion H; subst; clear H.

Lemma chat_endpoint_window (req : ChatRequest) (w : World Row) (s : state) :
  chat_history (final_state (chat_endpoint py_format req w s))
  = fold_left deque_append (attempted_turns (events (chat_endpoint py_format req w s)))
      (chat_history s).
Proof. run_handler; reflexivity. Qed.

Lemma serve_window (rs : list request) (w : World Row) (s : state) :
  chat_history (final_state (serve py_format json_encodable rs w s))
  = fold_left deque_append (attempted_turns (events (serve py_format json_encodable rs w s)))
      (chat_history s).
Proof.
  revert s. induction rs as [|r rs IH]; intros s; [reflexivity|].
  cbn [serve].
  assert (A : chat_history (final_state (app_handle py_format json_encodable r w s))
              = fold_left deque_append
                  (attempted_turns (events (app_handle py_format json_encodable r w s)))
                  (chat_history s)).
  { destruct r as [|uid msg]; [reflexivity|].
    pose proof (chat_endpoint_window (ChatRequest_init uid msg) w s) as W.
    cbn [app_handle]. unfold final_state, events in *.
    destruct (chat_endpoint py_format (ChatRequest_init uid msg) w s) as [[[d|e] s1] evs];
      exact W. }
  unfold final_state, events in *.
  destruct (app_handle py_format json_encodable r w s) as [[resp s1] evs1].
  specialize (IH s1).
  destruct (serve py_format json_encodable rs w s1) as [[resps s2] evs2].
  cbn [fst snd] in *. rewrite attempted_turns_app, fold_left_app, <- A. exact IH.
Qed.

(** X13: at any point of the process, the window holds exactly the last
    five turns whose chat-log insert was attempted, in order, whether or not
    the insert and the commit went through. *)
Theorem window_is_last_five_attempted_turns (rs : list request) (w : World Row) :
  chat_history (final_state (serve py_format json_encodable rs w initial_state))
  = lastn 5 (attempted_turns (events (serve py_format json_encodable rs w initial_state))).
Proof.
  rewrite serve_window. apply (appended_lastn _).
Qed.

(** X6: when a model call raises, in [generate_sql] or in
    [format_response], the handler raises that exception, that call is the
    last one made, the window is unchanged, no chat-log insert is attempted
    and nothing is committed. *)
Theorem model_error_ends_the_request (req : ChatRequest) (w : World Row) (s : state)
    (out : result (pyval Row)) (s' : state) (evs : list (event Row))
    (prompt : str) (e : exn) :
  chat_endpoint py_format req w s = (out, s', evs) ->
  In (EvGenerate prompt (Raise e)) evs ->
  out = Raise e /\
  chat_history s' = chat_history s /\
  attempted_turns evs = [] /\
  (forall r, ~ In (EvCommit r) evs) /\
  exists pre, evs = pre ++ [EvGenerate prompt (Raise e)].
Proof.
  intros H Q. invert_run H; pick_event Q.
  all: repeat (split; [reflexivity|]).
  all: split; [intros r C; pick_event C|].
  all: first [ exists []; reflexivity
             | eexists [_; _]; reflexivity
             | eexists [_; _; _]; reflexivity ].
Qed.

(** X7: a handler that returns has ended with the clock reading, the
    chat-log insert of [(user_id, message, bot_response, that reading)] and
    the commit, all successful, in this order; the logged message and reply
    are the [user_message] and [bot_response] it returns. *)
Theorem returned_reply_was_committed (req : ChatRequest) (w : World Row) (s : state)
    (d : pyval Row) (s' : state) (evs : list (event Row)) :
  chat_endpoint py_format req w s = (Ok d, s', evs) ->
  exists pre reply t,
    evs = pre ++ [EvNow t;
                  EvExecute insert_chat (Some (user_id req, message req, reply, t)) (Ok tt);
                  EvCommit (Ok tt)] /\
    getitem d (lit "user_message") = Some (PyStr (message req)) /\
    getitem d (lit "bot_response") = Some (PyStr reply).
Proof.
  intros H. invert_run H.
  all: first [ eexists [_; _; _; _], _, _; split; [reflexivity|]
             | eexists [_; _; _], _, _; split; [reflexivity|] ];
    split; reflexivity.
Qed.

(** X8: the statement the handler executes is the fence-stripped model
    answer, passed without parameters right after the model call, and a
    returned response reports that same text as [sql_query]. *)
Theorem executed_sql_is_the_stripped_answer (req : ChatRequest) (w : World Row)
    (s : state) (out : result (pyval Row)) (s' : state) (evs : list (event Row))
    (operation : str) (r : result unit) :
  chat_endpoint py_format req w s = (out, s', evs) ->
  In (EvExecute operation None r) evs ->
  (exists prompt raw rest,
      evs = EvGenerate prompt (Ok raw) :: EvExecute operation None r :: rest /\
      operation = strip_fence raw) /\
  (forall d, out = Ok d -> getitem d (lit "sql_query") = Some (PyStr operation)).
Proof.
  intros H Q. invert_run H; pick_event Q.
  all: split; [eexists _, _, _; split; reflexivity|].
  all: intros d D; inversion D; subst; reflexivity.
Qed.

(** X9: when [cursor.execute] raises on the generated SQL,
    [cursor.fetchall] is not called. *)
Theorem failed_execute_skips_fetchall (req : ChatRequest) (w : World Row) (s : state)
    (out : result (pyval Row)) (s' : state) (evs : list (event Row))
    (sql : str) (e : exn) :
  chat_endpoint py_format req w s = (out, s', evs) ->
  In (EvExecute sql None (Raise e)) evs ->
  forall r, ~ In (EvFetchall r) evs.
Proof.
  intros H Q. invert_run H; pick_event Q.
  all: intros r C; pick_event C.
Qed.

(** X10: one chat request makes one or two model calls, at most four
    database calls and at most seven collaborator calls in all. *)
Theorem chat_endpoint_call_budget (req : ChatRequest) (w : World Row) (s : state) :
  let evs := events (chat_endpoint py_format req w s) in
  1 <= length (filter is_generate evs) <= 2 /\
  length (filter is_database_call evs) <= 4 /\
  length evs <= 7.
Proof.
  cbv zeta. run_handler; cbn; lia.
Qed.

(** X11: when the query succeeds, the fetched rows are what the
    formatting prompt is built on, in the call right after [fetchall], and
    what a returned response carries as [results]. *)
Theorem fetched_rows_are_formatted_and_returned (req : ChatRequest) (w : World Row)
    (s : state) (out : result (pyval Row)) (s' : state) (evs : list (event Row))
    (rows : list Row) :
  chat_endpoint py_format req w s = (out, s', evs) ->
  In (EvFetchall (Ok rows)) evs ->
  (exists pre r post,
      evs = pre ++ EvFetchall (Ok rows)
              :: EvGenerate
                   (reply_prompt (get_chat_context (chat_history s)) (message req)
                      (py_format (PyRows rows)))
                   r
              :: post) /\
  (forall d, out = Ok d -> getitem d (lit "results") = Some (PyRows rows)).
Proof.
  intros H Q. invert_run H; pick_event Q.
  all: split; [eexists [_; _], _, _; reflexivity|].
  all: intros d D; inversion D; subst; reflexivity.
Qed.

(** X12: every prompt a chat request sends to the model is built on the
    transcript of the window as it was when the request arrived and on the
    request's message; the turn being answered is not in its own prompts. *)
Theorem prompts_use_the_window_before_the_request (req : ChatRequest) (w : World Row)
    (s : state) (out : result (pyval Row)) (s' : state) (evs : list (event Row))
    (prompt : str) (r : result str) :
  chat_endpoint py_format req w s = (out, s', evs) ->
  In (EvGenerate prompt r) evs ->
  prompt = sql_prompt (get_chat_context (chat_history s)) (message req) \/
  exists results,
    prompt = reply_prompt (get_chat_context (chat_history s)) (message req)
               (py_format results).
Proof.
  intros H Q. invert_run H; pick_event Q; eauto.
Qed.

(** X5: the [bot_response] of a returned response is trimmed: it has no
    white space at either end and trimming it again changes nothing. *)
Theorem bot_response_is_trimmed (req : ChatRequest) (w : World Row) (s : state)
    (d : pyval Row) (s' : state) (evs : list (event Row)) :
  chat_endpoint py_format req w s = (Ok d, s', evs) ->
  exists reply,
    getitem d (lit "bot_response") = Some (PyStr reply) /\
    strip reply = reply /\
    (forall c, hd_error reply = Some c -> isspace c = false) /\
    (forall c, hd_error (rev reply) = Some c -> isspace c = false).
Proof.
  intros H. invert_run H.
  all: eexists; split; [reflexivity|]; split; [apply strip_by_idempotent|];
    apply strip_by_ends.
Qed.

End ServiceFacts.

(** ** The deployment, evaluated *)

(** C1: [generate_sql] on a fenced and on an unfenced model answer.  For the
    answer [```sql], newline, [SELECT 1;], newline, [```] it returns the
    statement with both newlines still around it, and for the unfenced answer
    [SELECT * FROM buses] it returns [SELECT * FROM buse]: [str.strip(chars)]
    removes any run of the characters of [chars] from both ends, and the
    white space is trimmed before the fence is. *)
Theorem generate_sql_strips_characters_not_fences :
  outcome (generate_sql (lit "Show all buses") healthy_world initial_state)
    = Ok (lit "
SELECT 1;
") /\
  outcome (generate_sql (lit "Show all buses") plain_world initial_state)
    = Ok (lit "SELECT * FROM buse").
Proof. split; vm_compute; reflexivity. Qed.

Lemma transcript_of_appended_turns_witness :
  (get_chat_context (appended (firstn 2 six_turns)) = transcript_spec (firstn 2 six_turns)) /\
  (length (lastn 5 six_turns) = 5 /\
   get_chat_context (appended six_turns) = transcript_spec (lastn 5 six_turns)).
Proof.
  split.
  - apply (proj1 (transcript_of_appended_turns (firstn 2 six_turns))). cbn. lia.
  - apply (proj2 (transcript_of_appended_turns six_turns)). cbn. lia.
Defined.

Lemma chat_response_shape_witness :
  (healthy_run = (Ok healthy_response, final_state healthy_run, events healthy_run) /\
   sample_encodable healthy_response = true /\
   app_handle sample_format sample_encodable (POST_chat None (lit "Show all buses"))
     healthy_world initial_state
     = ({| status_code := 200; body := healthy_response |},
        final_state healthy_run, events healthy_run) /\
   keys healthy_response
     = [lit "user_message"; lit "sql_query"; lit "results"; lit "bot_response"]) /\
  (blob_run = (Ok blob_response, final_state blob_run, events blob_run) /\
   blob_encodable blob_response = false /\
   app_handle blob_format blob_encodable (POST_chat None (lit "Show all buses"))
     blob_world initial_state
     = ({| status_code := 500; body := PyStr (lit "Internal Server Error") |},
        final_state blob_run, events blob_run) /\
   keys blob_response
     = [lit "user_message"; lit "sql_query"; lit "results"; lit "bot_response"]).
Proof.
  assert (H : healthy_run = (Ok healthy_response, final_state healthy_run, events healthy_run))
    by (vm_compute; reflexivity).
  assert (B : blob_run = (Ok blob_response, final_state blob_run, events blob_run))
    by (vm_compute; reflexivity).
  split.
  - destruct (chat_response_shape sample_row sample_format sample_encodable
                healthy_world initial_state
                None (lit "Show all buses") healthy_response
                (final_state healthy_run) (events healthy_run) H) as (A & _ & K & _ & _).
    split; [exact H|]. split; [reflexivity|]. split; [apply A; reflexivity | exact K].
  - destruct (chat_response_shape blob_row blob_format blob_encodable
                blob_world initial_state
                None (lit "Show all buses") blob_response
                (final_state blob_run) (events blob_run) B) as (_ & A & K & _ & _).
    split; [exact B|]. split; [reflexivity|]. split; [apply A; reflexivity | exact K].
Defined.

Lemma query_error_is_fed_to_formatting_witness :
  In (EvExecute (strip_fence fenced_answer) None (Raise unknown_column))
     (events bad_query_run) /\
  getitem (match outcome bad_query_run with Ok d => d | Raise _ => PyStr [] end)
          (lit "results")
    = Some (PyDict [(lit "error", PyStr (lit "Unknown column"))]).
Proof.
  assert (Q : In (EvExecute (strip_fence fenced_answer) None (Raise unknown_column))
                 (events bad_query_run))
    by (vm_compute; right; left; reflexivity).
  split; [exact Q|].
  destruct (query_error_is_fed_to_formatting sample_row sample_format hello
              bad_query_world initial_state
              (outcome bad_query_run) (final_state bad_query_run) (events bad_query_run)
              (strip_fence fenced_answer) unknown_column
              ltac:(vm_compute; reflexivity) (or_introl Q)) as (_ & R & _).
  apply R. vm_compute. reflexivity.
Defined.

Lemma second_prompt_carries_first_turn_witness :
  exists reply1 context r rest,
    getitem healthy_response (lit "bot_response") = Some (PyStr reply1) /\
    events (chat_endpoint sample_format again healthy_world (final_state healthy_run))
      = EvGenerate (sql_prompt context (message again)) r :: rest /\
    context = get_chat_context (chat_history (final_state healthy_run)) /\
    contains (lit "User: " ++ message hello ++ NL ++ lit "Bot: " ++ reply1) context /\
    contains (message hello) context /\
    contains reply1 context /\
    contains (lit "User: " ++ message hello ++ NL ++ lit "Bot: " ++ reply1)
      (sql_prompt context (message again)) /\
    contains (message hello) (sql_prompt context (message again)) /\
    contains reply1 (sql_prompt context (message again)).
Proof.
  apply (second_prompt_carries_first_turn sample_row sample_format hello again
           healthy_world initial_state healthy_response
           (final_state healthy_run) (events healthy_run)).
  vm_compute. reflexivity.
Defined.

Lemma logging_error_fails_the_request_witness :
  In (EvCommit (Raise server_gone)) (events failing_commit_run) /\
  outcome failing_commit_run = Raise server_gone /\
  status_code
    (outcome (app_handle sample_format sample_encodable (POST_chat None (lit "Show all buses"))
                failing_commit_world initial_state)) = 500%Z.
Proof.
  assert (Q : In (EvCommit (Raise server_gone)) (events failing_commit_run))
    by (vm_compute; do 6 right; left; reflexivity).
  split; [exact Q|].
  destruct (logging_error_fails_the_request sample_row sample_format sample_encodable None
              (lit "Show all buses") failing_commit_world initial_state
              (outcome failing_commit_run) (final_state failing_commit_run)
              (events failing_commit_run) server_gone
              ltac:(vm_compute; reflexivity) (or_intror Q)) as (O & A & _).
  split; [exact O|]. rewrite A. reflexivity.
Defined.

Lemma logging_error_leaves_turn_in_window_witness :
  In (EvCommit (Raise server_gone)) (events failing_commit_run) /\
  exists reply,
    chat_history (final_state failing_commit_run) = [(lit "Show all buses", reply)] /\
    contains (format_turn (lit "Show all buses", reply))
      (sql_prompt (get_chat_context (chat_history (final_state failing_commit_run)))
         (message again)).
Proof.
  assert (Q : In (EvCommit (Raise server_gone)) (events failing_commit_run))
    by (vm_compute; do 6 right; left; reflexivity).
  split; [exact Q|].
  destruct (logging_error_leaves_turn_in_window sample_row sample_format hello
              failing_commit_world initial_state
              (outcome failing_commit_run) (final_state failing_commit_run)
              (events failing_commit_run) server_gone
              ltac:(vm_compute; reflexivity) (or_intror Q))
    as (reply & t & r & _ & _ & _ & A & N).
  exists reply. split; [exact A|].
  destruct (N again) as (r2 & rest & _ & C). exact C.
Defined.

Lemma strip_fence_leaves_trimmed_text_witness :
  strip_fence (lit "  SELECT 1;  ") = lit "SELECT 1;".
Proof.
  rewrite (strip_fence_leaves_trimmed_text (lit "  SELECT 1;  ")).
  - vm_compute. reflexivity.
  - intros c E. vm_compute in E. injection E as <-. reflexivity.
  - intros c E. vm_compute in E. injection E as <-. reflexivity.
Defined.

Lemma bot_response_is_trimmed_witness :
  exists reply,
    getitem healthy_response (lit "bot_response") = Some (PyStr reply) /\
    strip reply = reply /\
    (forall c, hd_error reply = Some c -> isspace c = false) /\
    (forall c, hd_error (rev reply) = Some c -> isspace c = false).
Proof.
  apply (bot_response_is_trimmed sample_row sample_format hello healthy_world
           initial_state healthy_response (final_state healthy_run) (events healthy_run)).
  vm_compute. reflexivity.
Defined.

Lemma model_error_ends_the_request_witness :
  In (EvGenerate (sql_prompt [] (lit "Show all buses")) (Raise model_down))
     (events model_down_run) /\
  outcome model_down_run = Raise model_down /\
  chat_history (final_state model_down_run) = [].
Proof.
  assert (Q : In (EvGenerate (sql_prompt [] (lit "Show all buses")) (Raise model_down))
                 (events model_down_run))
    by (vm_compute; left; reflexivity).
  split; [exact Q|].
  destruct (model_error_ends_the_request sample_row sample_format hello
              model_down_world initial_state
              (outcome model_down_run) (final_state model_down_run)
              (events model_down_run)
              (sql_prompt [] (lit "Show all buses")) model_down
              ltac:(vm_compute; reflexivity) Q) as (O & W & _).
  split; [exact O | exact W].
Defined.

Lemma returned_reply_was_committed_witness :
  exists pre reply t,
    events healthy_run
      = pre ++ [EvNow t;
                EvExecute insert_chat
                  (Some (user_id hello, message hello, reply, t)) (Ok tt);
                EvCommit (Ok tt)] /\
    getitem healthy_response (lit "user_message") = Some (PyStr (message hello)) /\
    getitem healthy_response (lit "bot_response") = Some (PyStr reply).
Proof.
  apply (returned_reply_was_committed sample_row sample_format hello healthy_world
           initial_state healthy_response (final_state healthy_run) (events healthy_run)).
  vm_compute. reflexivity.
Defined.

Lemma executed_sql_is_the_stripped_answer_witness :
  In (EvExecute (strip_fence fenced_answer) None (Ok tt)) (events healthy_run) /\
  getitem healthy_response (lit "sql_query") = Some (PyStr (strip_fence fenced_answer)).
Proof.
  assert (Q : In (EvExecute (strip_fence fenced_answer) None (Ok tt)) (events healthy_run))
    by (vm_compute; right; left; reflexivity).
  split; [exact Q|].
  destruct (executed_sql_is_the_stripped_answer sample_row sample_format hello
              healthy_world initial_state
              (Ok healthy_response) (final_state healthy_run) (events healthy_run)
              (strip_fence fenced_answer) (Ok tt)
              ltac:(vm_compute; reflexivity) Q) as (_ & R).
  apply R. reflexivity.
Defined.

Lemma failed_execute_skips_fetchall_witness :
  In (EvExecute (strip_fence fenced_answer) None (Raise unknown_column))
     (events bad_query_run) /\
  ~ In (EvFetchall (Ok [])) (events bad_query_run).
Proof.
  assert (Q : In (EvExecute (strip_fence fenced_answer) None (Raise unknown_column))
                 (events bad_query_run))
    by (vm_compute; right; left; reflexivity).
  split; [exact Q|].
  apply (failed_execute_skips_fetchall sample_row sample_format hello
           bad_query_world initial_state
           (outcome bad_query_run) (final_state bad_query_run) (events bad_query_run)
           (strip_fence fenced_answer) unknown_column
           ltac:(vm_compute; reflexivity) Q).
Defined.

Lemma fetched_rows_are_formatted_and_returned_witness :
  In (EvFetchall (Ok [])) (events healthy_run) /\
  getitem healthy_response (lit "results") = Some (PyRows []).
Proof.
  assert (Q : In (EvFetchall (Ok [])) (events healthy_run))
    by (vm_compute; do 2 right; left; reflexivity).
  split; [exact Q|].
  destruct (fetched_rows_are_formatted_and_returned sample_row sample_format hello
              healthy_world initial_state
              (Ok healthy_response) (final_state healthy_run) (events healthy_run) []
              ltac:(vm_compute; reflexivity) Q) as (_ & R).
  apply R. reflexivity.
Defined.

Lemma prompts_use_the_window_before_the_request_witness :
  In (EvGenerate (reply_prompt [] (message hello) (sample_format (PyRows [])))
        (Ok fenced_answer))
     (events healthy_run) /\
  (reply_prompt [] (message hello) (sample_format (PyRows []))
     = sql_prompt (get_chat_context (chat_history initial_state)) (message hello) \/
   exists results,
     reply_prompt [] (message hello) (sample_format (PyRows []))
       = reply_prompt (get_chat_context (chat_history initial_state)) (message hello)
           (sample_format results)).
Proof.
  assert (Q : In (EvGenerate (reply_prompt [] (message hello) (sample_format (PyRows [])))
                    (Ok fenced_answer))
                 (events healthy_run))
    by (vm_compute; do 3 right; left; reflexivity).
  split; [exact Q|].
  apply (prompts_use_the_window_before_the_request sample_row sample_format hello
           healthy_world initial_state
           (outcome healthy_run) (final_state healthy_run) (events healthy_run)
           (reply_prompt [] (message hello) (sample_format (PyRows [])))
           (Ok fenced_answer)
           ltac:(vm_compute; reflexivity) Q).
Defined.
